(** * The variable-sensitivity object factory and its configuration

    A shallow embedding of
    [src/analyses/variable-sensitivity/variable_sensitivity_object_factory.h]:
    the configuration record [vsd_configt] with [from_options] and the
    three presets, and the two construction templates of
    [variable_sensitivity_object_factoryt].  The lattice operations of the
    abstract objects themselves live in other headers; the part of them
    the properties below talk about is modelled in [Module Lattice]. *)

From stdpp Require Import base option strings list gmap.
From Stdlib Require Import ZArith Lia.

Local Open Scope string_scope.

(** ** Outcomes of fallible code

    [from_options] throws, and [PRECONDITION] aborts the construction: a
    computation either returns a value or raises. *)

Inductive outcome (E A : Type) : Type :=
| Return (a : A)
| Throw (e : E).

Arguments Return {E A} a.
Arguments Throw {E A} e.

Global Instance outcome_ret {E} : MRet (outcome E) := fun A a => Return a.

Global Instance outcome_bind {E} : MBind (outcome E) := fun A B k m =>
  match m with
  | Return a => k a
  | Throw e => Throw e
  end.

Definition returned {E A} (m : outcome E A) : option A :=
  match m with
  | Return a => Some a
  | Throw _ => None
  end.

Definition throws {E A} (m : outcome E A) : bool :=
  match m with
  | Return _ => false
  | Throw _ => true
  end.

(** ** [vsd_configt] *)

Record primitive_sensitivityt : Type := {
  struct_sensitivity : bool;
  array_sensitivity : bool;
  pointer_sensitivity : bool
}.

Record context_trackingt : Type := {
  data_dependency_context : bool;
  last_write_context : bool
}.

Record advanced_sensitivitiest : Type := {
  intervals : bool;
  value_set : bool;
  new_value_set : bool
}.

Record vsd_configt : Type := {
  primitive_sensitivity : primitive_sensitivityt;
  context_tracking : context_trackingt;
  advanced_sensitivities : advanced_sensitivitiest
}.

(** [vsd_configt config{}]: value initialisation clears every flag. *)
Definition value_initialized : vsd_configt :=
  {| primitive_sensitivity :=
       {| struct_sensitivity := false;
          array_sensitivity := false;
          pointer_sensitivity := false |};
     context_tracking :=
       {| data_dependency_context := false;
          last_write_context := false |};
     advanced_sensitivities :=
       {| intervals := false;
          value_set := false;
          new_value_set := false |} |}.

(** The member assignments [config.group.field = b]. *)

Definition with_primitive (f : primitive_sensitivityt -> primitive_sensitivityt)
    (config : vsd_configt) : vsd_configt :=
  {| primitive_sensitivity := f (primitive_sensitivity config);
     context_tracking := context_tracking config;
     advanced_sensitivities := advanced_sensitivities config |}.

Definition with_context (f : context_trackingt -> context_trackingt)
    (config : vsd_configt) : vsd_configt :=
  {| primitive_sensitivity := primitive_sensitivity config;
     context_tracking := f (context_tracking config);
     advanced_sensitivities := advanced_sensitivities config |}.

Definition with_advanced (f : advanced_sensitivitiest -> advanced_sensitivitiest)
    (config : vsd_configt) : vsd_configt :=
  {| primitive_sensitivity := primitive_sensitivity config;
     context_tracking := context_tracking config;
     advanced_sensitivities := f (advanced_sensitivities config) |}.

Definition set_struct_sensitivity (b : bool) : vsd_configt -> vsd_configt :=
  with_primitive (fun p =>
    {| struct_sensitivity := b;
       array_sensitivity := array_sensitivity p;
       pointer_sensitivity := pointer_sensitivity p |}).

Definition set_array_sensitivity (b : bool) : vsd_configt -> vsd_configt :=
  with_primitive (fun p =>
    {| struct_sensitivity := struct_sensitivity p;
       array_sensitivity := b;
       pointer_sensitivity := pointer_sensitivity p |}).

Definition set_pointer_sensitivity (b : bool) : vsd_configt -> vsd_configt :=
  with_primitive (fun p =>
    {| struct_sensitivity := struct_sensitivity p;
       array_sensitivity := array_sensitivity p;
       pointer_sensitivity := b |}).

Definition set_data_dependency_context (b : bool) : vsd_configt -> vsd_configt :=
  with_context (fun c =>
    {| data_dependency_context := b;
       last_write_context := last_write_context c |}).

Definition set_last_write_context (b : bool) : vsd_configt -> vsd_configt :=
  with_context (fun c =>
    {| data_dependency_context := data_dependency_context c;
       last_write_context := b |}).

Definition set_intervals (b : bool) : vsd_configt -> vsd_configt :=
  with_advanced (fun a =>
    {| intervals := b;
       value_set := value_set a;
       new_value_set := new_value_set a |}).

Definition set_value_set (b : bool) : vsd_configt -> vsd_configt :=
  with_advanced (fun a =>
    {| intervals := intervals a;
       value_set := b;
       new_value_set := new_value_set a |}).

Definition set_new_value_set (b : bool) : vsd_configt -> vsd_configt :=
  with_advanced (fun a =>
    {| intervals := intervals a;
       value_set := value_set a;
       new_value_set := b |}).

(** [invalid_command_line_argument_exceptiont{reason, option, correct_input}] *)
Record invalid_command_line_argument_exceptiont : Type := {
  reason : string;
  option_name : string;
  correct_input : string
}.

(** The static members of [vsd_configt].  [optionst] is declared in
    [util/options.h]; the only thing [from_options] does with it is read
    boolean flags, so the table and its reader are parameters. *)
Module vsd_config.
Section from_options.
Context {optionst : Type}.
Variable get_bool_option : optionst -> string -> bool.

Definition from_options (options : optionst)
    : outcome invalid_command_line_argument_exceptiont vsd_configt :=
  let config := value_initialized in
  if get_bool_option options "value-set" &&
     get_bool_option options "data-dependencies"
  then
    Throw
      {| reason :=
           "Value set is not currently supported with data dependency analysis";
         option_name := "--value-set --data-dependencies";
         correct_input := "--data-dependencies" |}
  else
    let config :=
      set_struct_sensitivity (get_bool_option options "structs") config in
    let config :=
      set_array_sensitivity (get_bool_option options "arrays") config in
    let config :=
      set_pointer_sensitivity (get_bool_option options "pointers") config in
    let config :=
      set_last_write_context
        (negb (get_bool_option options "value-set")) config in
    let config :=
      set_data_dependency_context
        (get_bool_option options "data-dependencies") config in
    let config :=
      set_intervals (get_bool_option options "interval") config in
    let config :=
      set_value_set (get_bool_option options "value-set") config in
    let config :=
      set_new_value_set (get_bool_option options "new-value-set") config in
    Return config.
End from_options.

Definition constant_domain : vsd_configt :=
  let config := value_initialized in
  let config := set_pointer_sensitivity true config in
  let config := set_array_sensitivity true config in
  let config := set_struct_sensitivity true config in
  let config := set_last_write_context true config in
  config.

Definition value_set : vsd_configt :=
  let config := value_initialized in
  let config := set_pointer_sensitivity true config in
  let config := set_array_sensitivity true config in
  let config := set_struct_sensitivity true config in
  let config := set_value_set true config in
  config.

Definition intervals : vsd_configt :=
  let config := value_initialized in
  let config := set_pointer_sensitivity true config in
  let config := set_array_sensitivity true config in
  let config := set_struct_sensitivity true config in
  let config := set_last_write_context true config in
  let config := set_intervals true config in
  config.
End vsd_config.

(** A concrete option table for running [from_options]. *)

(** Modelled from the spec: [optionst] (declared in [util/options.h],
    outside this header) as the table of flags delivered to
    [from_options]; a flag that was not given reads as false. *)
Definition get_bool_option (options : gmap string bool) (name : string) : bool :=
  default false (options !! name).

Definition value_set_with_data_dependencies : gmap string bool :=
  list_to_map [("value-set", true); ("data-dependencies", true)].

Definition value_set_only : gmap string bool :=
  {[ "value-set" := true ]}.

Definition new_value_set_with_data_dependencies : gmap string bool :=
  list_to_map [("new-value-set", true); ("data-dependencies", true)].

(** ** [variable_sensitivity_object_factoryt] *)

(** The classes the templates are instantiated with: the abstract-object
    classes of the included headers (one per [ABSTRACT_OBJECT_TYPET]
    representation) and the two context classes. *)
Inductive abstract_object_classt : Type :=
| abstract_objectt
| constant_abstract_valuet
| interval_abstract_valuet
| array_abstract_objectt
| constant_array_abstract_objectt
| pointer_abstract_objectt
| constant_pointer_abstract_objectt
| struct_abstract_objectt
| full_struct_abstract_objectt
| union_abstract_objectt
| value_set_abstract_objectt.

Inductive context_classt : Type :=
| data_dependency_contextt
| write_location_contextt.

Global Instance abstract_object_classt_eq_dec : EqDecision abstract_object_classt.
Proof. solve_decision. Defined.

Global Instance context_classt_eq_dec : EqDecision context_classt.
Proof. solve_decision. Defined.

(** [PRECONDITION(c)] raises [invariant_failedt] when [c] is false. *)
Record invariant_failedt : Type := {
  condition : string
}.

Definition PRECONDITION (c : bool) (text : string) : outcome invariant_failedt unit :=
  if c then Return tt else Throw {| condition := text |}.

Record variable_sensitivity_object_factoryt : Type := {
  configuration : vsd_configt;
  initialized : bool
}.

Definition configured_with (options : vsd_configt)
    : variable_sensitivity_object_factoryt :=
  {| configuration := options; initialized := true |}.

(** The same factory with both context-tracking flags cleared. *)
Definition without_context_tracking (this : variable_sensitivity_object_factoryt)
    : variable_sensitivity_object_factoryt :=
  {| configuration :=
       set_data_dependency_context false
         (set_last_write_context false (configuration this));
     initialized := initialized this |}.

(** Modelled from the spec: the state of an abstract object (the classes
    are declared in [abstract_object.h] and the headers of its subclasses,
    outside this header): top, bottom, or neither and then a payload;
    "[is_top] and [is_bottom] are never both true". *)
Inductive lattice_statet : Type :=
| state_top
| state_bottom
| state_neither.

Global Instance lattice_statet_eq_dec : EqDecision lattice_statet.
Proof. solve_decision. Defined.

(** Modelled from the spec: the state a [(type, top, bottom)] constructor
    puts its object in.  Asking for top and bottom at once is the contract
    violation "simultaneous top+bottom", which aborts the construction. *)
Definition requested_state (top bottom : bool)
    : outcome invariant_failedt lattice_statet :=
  match top, bottom with
  | true, true => Throw {| condition := "!(top && bottom)" |}
  | true, false => Return state_top
  | false, true => Return state_bottom
  | false, false => Return state_neither
  end.

Section factory.
(** [typet], [exprt], [abstract_environmentt] and [namespacet] come from
    headers outside this file; the factory only compares types, reads
    the type of the seed expression and follows it in the namespace. *)
Context {typet exprt abstract_environmentt namespacet : Type}.
Context `{type_eq : EqDecision typet}.
Variable expr_type : exprt -> typet.
Variable follow : namespacet -> typet -> typet.

(** What the two constructor overloads of every class leave behind: the
    lattice state the object was put in, or the seed it was built from. *)
Inductive constructor_argumentst : Type :=
| lattice_state (type : typet) (state : lattice_statet)
| seed (e : exprt) (environment : abstract_environmentt) (ns : namespacet).

(** What the factory hands back: the [new] expression it evaluated. *)
Inductive abstract_object_pointert : Type :=
| new_object (cls : abstract_object_classt) (args : constructor_argumentst)
| new_context (ctx : context_classt) (child : abstract_object_pointert)
    (args : constructor_argumentst).

Fixpoint nesting_depth (o : abstract_object_pointert) : nat :=
  match o with
  | new_object _ _ => 0
  | new_context _ child _ => S (nesting_depth child)
  end.

Definition context_of (o : abstract_object_pointert) : option context_classt :=
  match o with
  | new_object _ _ => None
  | new_context ctx _ _ => Some ctx
  end.

(** The object at the core of the wrappers. *)
Fixpoint base_object (o : abstract_object_pointert) : abstract_object_pointert :=
  match o with
  | new_object _ _ => o
  | new_context _ child _ => base_object child
  end.

Definition arguments_of (o : abstract_object_pointert) : constructor_argumentst :=
  match o with
  | new_object _ args => args
  | new_context _ _ args => args
  end.

(** Modelled from the spec: [new abstract_object_classt(type, top, bottom)],
    the constructor of the chosen class (declared outside this header); it
    puts the object in the requested state or aborts. *)
Definition construct_object (cls : abstract_object_classt)
    (type : typet) (top bottom : bool)
    : outcome invariant_failedt abstract_object_pointert :=
  state ← requested_state top bottom;
  Return (new_object cls (lattice_state type state)).

(** Modelled from the spec: [new context_classt(child, type, top, bottom)],
    the constructor of the context class (declared outside this header);
    it owns the child and is put in the requested state, or aborts. *)
Definition construct_context (ctx : context_classt)
    (child : abstract_object_pointert) (type : typet) (top bottom : bool)
    : outcome invariant_failedt abstract_object_pointert :=
  state ← requested_state top bottom;
  Return (new_context ctx child (lattice_state type state)).

Definition initialize_context_abstract_object
    (abstract_object_class : abstract_object_classt)
    (context_class : context_classt)
    (type : typet) (top bottom : bool) (e : exprt)
    (environment : abstract_environmentt) (ns : namespacet)
    : outcome invariant_failedt abstract_object_pointert :=
  if top || bottom then
    child ← construct_object abstract_object_class type top bottom;
    construct_context context_class child type top bottom
  else
    PRECONDITION (bool_decide (type = follow ns (expr_type e)))
      "type == ns.follow(e.type())";;
    Return
      (new_context context_class
         (new_object abstract_object_class (seed e environment ns))
         (seed e environment ns)).

Definition initialize_abstract_object
    (this : variable_sensitivity_object_factoryt)
    (abstract_object_class : abstract_object_classt)
    (type : typet) (top bottom : bool) (e : exprt)
    (environment : abstract_environmentt) (ns : namespacet)
    : outcome invariant_failedt abstract_object_pointert :=
  if data_dependency_context (context_tracking (configuration this)) then
    initialize_context_abstract_object
      abstract_object_class data_dependency_contextt
      type top bottom e environment ns
  else if last_write_context (context_tracking (configuration this)) then
    initialize_context_abstract_object
      abstract_object_class write_location_contextt
      type top bottom e environment ns
  else if top || bottom then
    construct_object abstract_object_class type top bottom
  else
    PRECONDITION (bool_decide (type = follow ns (expr_type e)))
      "type == ns.follow(e.type())";;
    Return (new_object abstract_object_class (seed e environment ns)).

(** The state of an object built from a seed expression is decided by its
    class, in headers outside this file. *)
Variable seed_state :
  abstract_object_classt + context_classt ->
  exprt -> abstract_environmentt -> namespacet -> lattice_statet.

Definition class_of (o : abstract_object_pointert)
    : abstract_object_classt + context_classt :=
  match o with
  | new_object cls _ => inl cls
  | new_context ctx _ _ => inr ctx
  end.

Definition state_of (o : abstract_object_pointert) : lattice_statet :=
  match arguments_of o with
  | lattice_state _ state => state
  | seed e environment ns => seed_state (class_of o) e environment ns
  end.

(** Modelled from the spec: [is_top()] of the classes being constructed
    (declared in [abstract_object.h] and [context_abstract_object.h],
    outside this header): whether the object is in the top state. *)
Definition is_top (o : abstract_object_pointert) : bool :=
  bool_decide (state_of o = state_top).

(** Modelled from the spec: [is_bottom()] of the classes being
    constructed: whether the object is in the bottom state. *)
Definition is_bottom (o : abstract_object_pointert) : bool :=
  bool_decide (state_of o = state_bottom).
End factory.

(** ** The lattice of abstract objects *)

Module Lattice.

Local Set Warnings "-register-all".

(** Modelled from the spec: the bounds of an interval (declared in
    [interval_abstract_value.h], outside this header); a bound is a
    literal value or unbounded, "negative/positive infinity". *)
Inductive boundt : Type :=
| neg_inf
| finite (z : Z)
| pos_inf.

(** Modelled from the spec: the smaller of two bounds, "min of both
    lowers". *)
Definition bound_min (a b : boundt) : boundt :=
  match a, b with
  | neg_inf, _ | _, neg_inf => neg_inf
  | pos_inf, x | x, pos_inf => x
  | finite x, finite y => finite (Z.min x y)
  end.

(** Modelled from the spec: the larger of two bounds, "max of both
    uppers". *)
Definition bound_max (a b : boundt) : boundt :=
  match a, b with
  | pos_inf, _ | _, pos_inf => pos_inf
  | neg_inf, x | x, neg_inf => x
  | finite x, finite y => finite (Z.max x y)
  end.

(** Modelled from the spec: the abstract-object hierarchy (the classes
    are declared in their own headers, outside this one).  An abstract
    object is top, bottom, or neither and then carries the
    payload of its variant: a concrete value (two-value, constant), a
    lower and an upper bound (interval), an explicit set of candidate
    values (value-set), one object per index (array sensitive) or per
    field in the order of the type's field list (struct sensitive), a set
    of targets with offsets (pointer sensitive), or a single summary
    (the insensitive variants). *)
Inductive abstract_object : Type :=
| top
| bottom
| two_value (v : Z)
| constant (v : Z)
| interval (lower upper : boundt)
| value_set (values : gset Z)
| array_sensitive (elements : list abstract_object)
| array_insensitive (summary : abstract_object)
| struct_sensitive (fields : list abstract_object)
| struct_insensitive (summary : abstract_object)
| pointer_sensitive (targets : gset (string * Z))
| pointer_insensitive (summary : abstract_object)
| union_insensitive (summary : abstract_object).

(** Modelled from the spec: the type of an abstract object together with
    the variant selected for it, which is what "same-type" objects share:
    the element type and length of an array, the ordered field list of a
    struct, the type summarised by an insensitive variant. *)
Inductive object_typet : Type :=
| TWO_VALUE
| CONSTANT
| INTERVAL
| VALUE_SET
| ARRAY_SENSITIVE (element : object_typet) (size : nat)
| ARRAY_INSENSITIVE (element : object_typet)
| STRUCT_SENSITIVE (fields : list object_typet)
| STRUCT_INSENSITIVE (summary : object_typet)
| POINTER_SENSITIVE
| POINTER_INSENSITIVE (summary : object_typet)
| UNION_INSENSITIVE (summary : object_typet).

Section merge.
(** The configured cardinality bound [K] of the value-set domain and the
    bound on the target set of a sensitive pointer. *)
Variable K : nat.
Variable target_bound : nat.

(** Modelled from the spec: [merge] of every variant (section 4.3).
    Bottom is neutral and top absorbs; two-value and constant keep equal
    values and go to top on different ones; interval takes the convex
    hull; value-set and pointer-sensitive take the union and collapse to
    top when it exceeds the bound; the sensitive array and struct merge
    index-wise and field-wise; the insensitive variants merge their
    single summary.  Widening of intervals acts across fixpoint
    iterations and is not part of the binary merge.  Objects of
    different variants are never merged by well-typed callers; the model
    answers top for them. *)
Fixpoint merge (a b : abstract_object) {struct a} : abstract_object :=
  match a, b with
  | bottom, _ => b
  | _, bottom => a
  | top, _ | _, top => top
  | two_value v, two_value w => if decide (v = w) then two_value v else top
  | constant v, constant w => if decide (v = w) then constant v else top
  | interval l1 u1, interval l2 u2 =>
      interval (bound_min l1 l2) (bound_max u1 u2)
  | value_set s1, value_set s2 =>
      if decide (size (s1 ∪ s2) <= K) then value_set (s1 ∪ s2) else top
  | array_sensitive xs, array_sensitive ys =>
      array_sensitive (zip_with merge xs ys)
  | array_insensitive x, array_insensitive y => array_insensitive (merge x y)
  | struct_sensitive xs, struct_sensitive ys =>
      struct_sensitive (zip_with merge xs ys)
  | struct_insensitive x, struct_insensitive y => struct_insensitive (merge x y)
  | pointer_sensitive s1, pointer_sensitive s2 =>
      if decide (size (s1 ∪ s2) <= target_bound)
      then pointer_sensitive (s1 ∪ s2) else top
  | pointer_insensitive x, pointer_insensitive y =>
      pointer_insensitive (merge x y)
  | union_insensitive x, union_insensitive y => union_insensitive (merge x y)
  | _, _ => top
  end.

(** Modelled from the spec: an object has a type when it is top or
    bottom, or its payload has the shape the type's variant prescribes
    and respects the cardinality bounds. *)
Fixpoint has_type (a : abstract_object) (t : object_typet) {struct a} : bool :=
  match a, t with
  | top, _ | bottom, _ => true
  | two_value _, TWO_VALUE => true
  | constant _, CONSTANT => true
  | interval _ _, INTERVAL => true
  | value_set s, VALUE_SET => bool_decide (size s <= K)
  | array_sensitive xs, ARRAY_SENSITIVE t n =>
      bool_decide (length xs = n) && forallb (fun x => has_type x t) xs
  | array_insensitive x, ARRAY_INSENSITIVE t => has_type x t
  | struct_sensitive xs, STRUCT_SENSITIVE ts =>
      (fix fields xs ts {struct xs} :=
         match xs, ts with
         | [], [] => true
         | x :: xs, t :: ts => has_type x t && fields xs ts
         | _, _ => false
         end) xs ts
  | struct_insensitive x, STRUCT_INSENSITIVE t => has_type x t
  | pointer_sensitive s, POINTER_SENSITIVE =>
      bool_decide (size s <= target_bound)
  | pointer_insensitive x, POINTER_INSENSITIVE t => has_type x t
  | union_insensitive x, UNION_INSENSITIVE t => has_type x t
  | _, _ => false
  end.
End merge.

End Lattice.

(** ** A concrete instantiation

    Types are named by identifier, the namespace resolves tag names to
    the types they stand for, and an expression is an identifier together
    with its type. *)

Definition follow_tag (ns : gmap string string) (type : string) : string :=
  default type (ns !! type).

Definition type_of_expr (e : string * string) : string := e.2.

Definition never (_ : abstract_object_classt + context_classt)
    (_ : string * string) (_ : unit) (_ : gmap string string)
    : lattice_statet := state_neither.

Definition sample_namespace : gmap string string :=
  {[ "tag-counter_t" := "signedbv32" ]}.

Definition sample_expr : string * string := ("counter", "tag-counter_t").

Definition other_expr : string * string := ("flag", "bool").

(** A factory with both context flags set, as [from_options] yields it
    when data dependencies are requested; none of the presets has both. *)
Definition both_contexts : variable_sensitivity_object_factoryt :=
  configured_with (set_data_dependency_context true vsd_config.constant_domain).

(** The flag names [from_options] asks for, in the order of its reads. *)
Definition recognised_flags : list string :=
  ["value-set"; "data-dependencies"; "structs"; "arrays"; "pointers";
   "interval"; "new-value-set"].

Definition constant_domain_flags : gmap string bool :=
  list_to_map [("structs", true); ("arrays", true); ("pointers", true)].

(** The same flags together with one [from_options] does not know. *)
Definition constant_domain_flags_verbose : gmap string bool :=
  <["verbosity" := true]> constant_domain_flags.

(** The same flags with the unset ones spelled out. *)
Definition constant_domain_flags_explicit : gmap string bool :=
  <["interval" := false]> (<["value-set" := false]> constant_domain_flags).

Definition data_dependency_flags : gmap string bool :=
  list_to_map [("structs", true); ("data-dependencies", true)].

Definition other_namespace : gmap string string :=
  {[ "tag-counter_t" := "unsignedbv8" ]}.

(** * Properties of [vsd_configt] *)

Section from_options_properties.
Context {optionst : Type}.
Variable flag : optionst -> string -> bool.

Local Abbreviation from_options := (vsd_config.from_options flag).

Lemma from_options_conflict (options : optionst) :
  flag options "value-set" && flag options "data-dependencies" = true ->
  from_options options =
    Throw
      {| reason :=
           "Value set is not currently supported with data dependency analysis";
         option_name := "--value-set --data-dependencies";
         correct_input := "--data-dependencies" |}.
Proof. intros H. unfold vsd_config.from_options. by rewrite H. Qed.

Lemma from_options_no_conflict (options : optionst) :
  flag options "value-set" && flag options "data-dependencies" = false ->
  from_options options =
    Return
      {| primitive_sensitivity :=
           {| struct_sensitivity := flag options "structs";
              array_sensitivity := flag options "arrays";
              pointer_sensitivity := flag options "pointers" |};
         context_tracking :=
           {| data_dependency_context := flag options "data-dependencies";
              last_write_context := negb (flag options "value-set") |};
         advanced_sensitivities :=
           {| intervals := flag options "interval";
              value_set := flag options "value-set";
              new_value_set := flag options "new-value-set" |} |}.
Proof. intros H. unfold vsd_config.from_options. by rewrite H. Qed.

(** C1: when the value-set flag and the data-dependencies flag are both
    true, [from_options] throws the exception that names the conflicting
    pair ["--value-set --data-dependencies"] and suggests
    ["--data-dependencies"], and it returns no configuration. *)
Theorem from_options_value_set_and_data_dependencies_throws (options : optionst) :
  flag options "value-set" = true ->
  flag options "data-dependencies" = true ->
  (exists error,
     from_options options = Throw error /\
     option_name error = "--value-set --data-dependencies" /\
     correct_input error = "--data-dependencies" /\
     reason error =
       "Value set is not currently supported with data dependency analysis") /\
  returned (from_options options) = None.
Proof.
  intros Hvs Hdd.
  rewrite from_options_conflict by (by rewrite Hvs, Hdd).
  split; [eexists; repeat split | done].
Qed.

(** C3: when the value-set flag is true and the data-dependencies flag is
    false, [from_options] returns a configuration, and in it the
    last-write context is off. *)
Theorem from_options_value_set_alone_disables_last_write (options : optionst) :
  flag options "value-set" = true ->
  flag options "data-dependencies" = false ->
  exists config,
    from_options options = Return config /\
    last_write_context (context_tracking config) = false /\
    value_set (advanced_sensitivities config) = true.
Proof.
  intros Hvs Hdd.
  rewrite from_options_no_conflict by (by rewrite Hvs, Hdd).
  eexists; split; [done | simpl]. by rewrite Hvs.
Qed.

(** C9: when the value-set flag is false, [from_options] returns a
    configuration with the last-write context on, whatever the other
    flags are (none of them has to be given). *)
Theorem from_options_last_write_on_without_value_set (options : optionst) :
  flag options "value-set" = false ->
  exists config,
    from_options options = Return config /\
    last_write_context (context_tracking config) = true.
Proof.
  intros Hvs.
  rewrite from_options_no_conflict by (by rewrite Hvs).
  eexists; split; [done | simpl]. by rewrite Hvs.
Qed.

(** C10: [from_options] throws if and only if value-set and
    data-dependencies are both true; on every other input it returns a
    configuration, in particular when new-value-set is given together
    with data-dependencies (and value-set is not): both flags are then
    on in the returned configuration. *)
Theorem from_options_throws_iff_value_set_and_data_dependencies (options : optionst) :
  (throws (from_options options) = true <->
     flag options "value-set" = true /\
     flag options "data-dependencies" = true) /\
  (~ (flag options "value-set" = true /\
      flag options "data-dependencies" = true) ->
   exists config, from_options options = Return config) /\
  (flag options "new-value-set" = true ->
   flag options "data-dependencies" = true ->
   flag options "value-set" = false ->
   exists config,
     from_options options = Return config /\
     new_value_set (advanced_sensitivities config) = true /\
     data_dependency_context (context_tracking config) = true).
Proof.
  destruct (flag options "value-set" && flag options "data-dependencies")
    eqn:Hboth.
  - rewrite from_options_conflict by done.
    apply andb_true_iff in Hboth as [Hvs Hdd].
    split_and!; [done | tauto | congruence].
  - rewrite from_options_no_conflict by done.
    apply andb_false_iff in Hboth.
    split_and!.
    + simpl. split; [done | intros [Hvs Hdd]]. destruct Hboth; congruence.
    + eauto.
    + intros Hnvs Hdd _. eexists; split; [done | simpl]. by rewrite Hnvs, Hdd.
Qed.
End from_options_properties.

(** C8: the presets set exactly the stated flags: [constant_domain] turns
    on struct, array and pointer sensitivity and the last-write context
    and nothing else; [intervals] turns on the same and the interval
    domain; [value_set] turns on struct, array and pointer sensitivity and
    the value-set domain, with both context flags off. *)
Theorem presets_set_exactly_the_stated_flags :
  vsd_config.constant_domain =
    {| primitive_sensitivity :=
         {| struct_sensitivity := true;
            array_sensitivity := true;
            pointer_sensitivity := true |};
       context_tracking :=
         {| data_dependency_context := false; last_write_context := true |};
       advanced_sensitivities :=
         {| intervals := false; value_set := false; new_value_set := false |} |}
  /\
  vsd_config.intervals =
    {| primitive_sensitivity :=
         {| struct_sensitivity := true;
            array_sensitivity := true;
            pointer_sensitivity := true |};
       context_tracking :=
         {| data_dependency_context := false; last_write_context := true |};
       advanced_sensitivities :=
         {| intervals := true; value_set := false; new_value_set := false |} |}
  /\
  vsd_config.value_set =
    {| primitive_sensitivity :=
         {| struct_sensitivity := true;
            array_sensitivity := true;
            pointer_sensitivity := true |};
       context_tracking :=
         {| data_dependency_context := false; last_write_context := false |};
       advanced_sensitivities :=
         {| intervals := false; value_set := true; new_value_set := false |} |}.
Proof. repeat split. Qed.

Lemma from_options_value_set_and_data_dependencies_throws_witness :
  returned
    (vsd_config.from_options get_bool_option value_set_with_data_dependencies) =
    None.
Proof.
  refine (proj2 (from_options_value_set_and_data_dependencies_throws
                   get_bool_option value_set_with_data_dependencies _ _));
    reflexivity.
Defined.

Lemma from_options_value_set_alone_disables_last_write_witness :
  exists config,
    vsd_config.from_options get_bool_option value_set_only = Return config /\
    last_write_context (context_tracking config) = false /\
    value_set (advanced_sensitivities config) = true.
Proof.
  refine (from_options_value_set_alone_disables_last_write
            get_bool_option value_set_only _ _);
    reflexivity.
Defined.

Lemma from_options_last_write_on_without_value_set_witness :
  exists config,
    vsd_config.from_options get_bool_option (∅ : gmap string bool) =
      Return config /\
    last_write_context (context_tracking config) = true.
Proof.
  refine (from_options_last_write_on_without_value_set
            get_bool_option (∅ : gmap string bool) _);
    reflexivity.
Defined.

Lemma from_options_throws_iff_value_set_and_data_dependencies_witness :
  exists config,
    vsd_config.from_options get_bool_option
      new_value_set_with_data_dependencies = Return config /\
    new_value_set (advanced_sensitivities config) = true /\
    data_dependency_context (context_tracking config) = true.
Proof.
  refine (proj2 (proj2 (from_options_throws_iff_value_set_and_data_dependencies
                          get_bool_option
                          new_value_set_with_data_dependencies)) _ _ _);
    reflexivity.
Defined.

(** * Properties of the construction templates *)

Section factory_properties.
Context {typet exprt abstract_environmentt namespacet : Type}.
Context `{type_eq : EqDecision typet}.
Variable expr_type : exprt -> typet.
Variable follow : namespacet -> typet -> typet.

Local Abbreviation objectt :=
  (@abstract_object_pointert typet exprt abstract_environmentt namespacet).
Local Abbreviation initialize := (initialize_abstract_object expr_type follow).
Local Abbreviation initialize_context :=
  (initialize_context_abstract_object expr_type follow).
Local Abbreviation violation :=
  (Throw {| condition := "type == ns.follow(e.type())" |}
     : outcome invariant_failedt objectt).
Local Abbreviation both_requested :=
  (Throw {| condition := "!(top && bottom)" |}
     : outcome invariant_failedt objectt).

Implicit Types (this : variable_sensitivity_object_factoryt)
  (cls : abstract_object_classt) (ctx : context_classt)
  (type : typet) (top bottom : bool) (e : exprt)
  (environment : abstract_environmentt) (ns : namespacet).

(** The ways out of [initialize_context_abstract_object]. *)

Lemma initialize_context_wraps cls ctx type top bottom e environment ns :
  initialize_context cls ctx type top bottom e environment ns =
    match top, bottom with
    | true, true => both_requested
    | true, false =>
        Return (new_context ctx (new_object cls (lattice_state type state_top))
                  (lattice_state type state_top))
    | false, true =>
        Return (new_context ctx (new_object cls (lattice_state type state_bottom))
                  (lattice_state type state_bottom))
    | false, false =>
        if bool_decide (type = follow ns (expr_type e)) then
          Return (new_context ctx (new_object cls (seed e environment ns))
                    (seed e environment ns))
        else violation
    end.
Proof.
  unfold initialize_context_abstract_object.
  destruct top, bottom; simpl; try done. by case_bool_decide.
Qed.

Lemma initialize_context_lattice_state cls ctx type top bottom e environment ns :
  top || bottom = true ->
  top && bottom = false ->
  initialize_context cls ctx type top bottom e environment ns =
    Return (new_context ctx
              (new_object cls
                 (lattice_state type (if top then state_top else state_bottom)))
              (lattice_state type (if top then state_top else state_bottom))).
Proof. rewrite initialize_context_wraps. by destruct top, bottom. Qed.

Lemma initialize_context_seed cls ctx type e environment ns :
  type = follow ns (expr_type e) ->
  initialize_context cls ctx type false false e environment ns =
    Return (new_context ctx (new_object cls (seed e environment ns))
              (seed e environment ns)).
Proof.
  intros H. rewrite initialize_context_wraps.
  by rewrite bool_decide_eq_true_2.
Qed.

Lemma initialize_context_violation cls ctx type e environment ns :
  type <> follow ns (expr_type e) ->
  initialize_context cls ctx type false false e environment ns = violation.
Proof.
  intros H. rewrite initialize_context_wraps.
  by rewrite bool_decide_eq_false_2.
Qed.

(** The dispatch of [initialize_abstract_object] on the two context
    flags. *)

Lemma initialize_data_dependency this cls type top bottom e environment ns :
  data_dependency_context (context_tracking (configuration this)) = true ->
  initialize this cls type top bottom e environment ns =
    initialize_context cls data_dependency_contextt
      type top bottom e environment ns.
Proof. intros H. unfold initialize_abstract_object. by rewrite H. Qed.

Lemma initialize_last_write this cls type top bottom e environment ns :
  data_dependency_context (context_tracking (configuration this)) = false ->
  last_write_context (context_tracking (configuration this)) = true ->
  initialize this cls type top bottom e environment ns =
    initialize_context cls write_location_contextt
      type top bottom e environment ns.
Proof. intros H1 H2. unfold initialize_abstract_object. by rewrite H1, H2. Qed.

Lemma initialize_plain this cls type top bottom e environment ns :
  data_dependency_context (context_tracking (configuration this)) = false ->
  last_write_context (context_tracking (configuration this)) = false ->
  initialize this cls type top bottom e environment ns =
    match top, bottom with
    | true, true => both_requested
    | true, false => Return (new_object cls (lattice_state type state_top))
    | false, true => Return (new_object cls (lattice_state type state_bottom))
    | false, false =>
        if bool_decide (type = follow ns (expr_type e)) then
          Return (new_object cls (seed e environment ns))
        else violation
    end.
Proof.
  intros H1 H2. unfold initialize_abstract_object. rewrite H1, H2.
  destruct top, bottom; simpl; try done. by case_bool_decide.
Qed.

Lemma initialize_without_context_tracking
    this cls type top bottom e environment ns :
  initialize (without_context_tracking this)
    cls type top bottom e environment ns =
    match top, bottom with
    | true, true => both_requested
    | true, false => Return (new_object cls (lattice_state type state_top))
    | false, true => Return (new_object cls (lattice_state type state_bottom))
    | false, false =>
        if bool_decide (type = follow ns (expr_type e)) then
          Return (new_object cls (seed e environment ns))
        else violation
    end.
Proof. by apply initialize_plain. Qed.

(** A request for top and bottom at once is turned down by the
    constructor of the chosen class, whatever the configuration. *)
Lemma top_and_bottom_request_is_rejected this cls ctx type e environment ns :
  initialize this cls type true true e environment ns = both_requested /\
  initialize_context cls ctx type true true e environment ns = both_requested.
Proof.
  split; [| done]. unfold initialize_abstract_object. by repeat case_match.
Qed.

(** C2: when the last-write flag and the data-dependency flag are both
    set, the factory builds the object through the data-dependency
    context: every object it returns is wrapped by
    [data_dependency_contextt], and it fails to return one only when top
    and bottom are requested at once or a seed is required and the type
    precondition is violated. *)
Theorem data_dependency_context_takes_precedence
    this cls type top bottom e environment ns :
  data_dependency_context (context_tracking (configuration this)) = true ->
  last_write_context (context_tracking (configuration this)) = true ->
  initialize this cls type top bottom e environment ns =
    initialize_context cls data_dependency_contextt
      type top bottom e environment ns /\
  match initialize this cls type top bottom e environment ns with
  | Return o => context_of o = Some data_dependency_contextt
  | Throw _ =>
      top && bottom = true \/
      (top || bottom = false /\ type <> follow ns (expr_type e))
  end.
Proof.
  intros Hdd _. rewrite initialize_data_dependency by done.
  split; [done |]. rewrite initialize_context_wraps.
  destruct top, bottom; simpl; try done; [by left |].
  case_bool_decide; [done | by right].
Qed.

(** C4: when the configuration selects a context-tracking mode, an
    object returned by the factory is one context wrapper around the
    object of the chosen class, the one the factory builds with context
    tracking off, so its nesting depth is one, and the factory returns
    whenever the unwrapped construction does; with no context-tracking
    mode the object of the chosen class is returned unwrapped. *)
Theorem context_wrapper_applied_exactly_once
    this cls type top bottom e environment ns :
  let wrapped := initialize this cls type top bottom e environment ns in
  let plain :=
    initialize (without_context_tracking this)
      cls type top bottom e environment ns in
  (data_dependency_context (context_tracking (configuration this)) = true \/
   last_write_context (context_tracking (configuration this)) = true ->
   match plain with
   | Return base =>
       exists ctx args,
         wrapped = Return (new_context ctx base args) /\
         base = new_object cls args /\
         nesting_depth (new_context ctx base args) = 1
   | Throw failure => wrapped = Throw failure
   end) /\
  (data_dependency_context (context_tracking (configuration this)) = false ->
   last_write_context (context_tracking (configuration this)) = false ->
   wrapped = plain /\
   match wrapped with
   | Return o => exists args, o = new_object cls args /\ nesting_depth o = 0
   | Throw _ => True
   end).
Proof.
  intros wrapped plain. subst wrapped plain.
  rewrite initialize_without_context_tracking. split.
  - intros Hmode.
    assert (exists ctx,
      initialize this cls type top bottom e environment ns =
        initialize_context cls ctx type top bottom e environment ns)
      as [ctx ->].
    { destruct (data_dependency_context (context_tracking (configuration this)))
        eqn:Hdd.
      - eexists. by apply initialize_data_dependency.
      - destruct Hmode as [? | Hlw]; [done |].
        eexists. by apply initialize_last_write. }
    rewrite initialize_context_wraps.
    destruct top, bottom; [done | by eauto | by eauto |].
    case_bool_decide; by eauto.
  - intros Hdd Hlw. rewrite initialize_plain by done.
    split; [done |].
    destruct top, bottom; [done | by eauto | by eauto |].
    case_bool_decide; by eauto.
Qed.

(** C6: with neither top nor bottom requested, the factory checks
    [type == ns.follow(e.type())] on every path, wrapped or not: when the
    check fails the construction is abandoned with the precondition
    violation, and when it holds the factory returns an object whose
    core is the chosen class built from the seed expression. *)
Theorem seed_construction_checks_the_followed_type
    this cls ctx type e environment ns :
  (type <> follow ns (expr_type e) ->
   initialize this cls type false false e environment ns = violation /\
   initialize_context cls ctx type false false e environment ns = violation) /\
  (type = follow ns (expr_type e) ->
   (exists o,
      initialize this cls type false false e environment ns = Return o /\
      base_object o = new_object cls (seed e environment ns) /\
      arguments_of o = seed e environment ns) /\
   initialize_context cls ctx type false false e environment ns =
     Return (new_context ctx (new_object cls (seed e environment ns))
               (seed e environment ns))).
Proof.
  split; intros Htype.
  - split; [| by apply initialize_context_violation].
    unfold initialize_abstract_object.
    rewrite !initialize_context_violation by done. simpl.
    rewrite bool_decide_eq_false_2 by done. by repeat case_match.
  - split; [| by apply initialize_context_seed].
    unfold initialize_abstract_object.
    rewrite !initialize_context_seed by done. simpl.
    rewrite bool_decide_eq_true_2 by done.
    repeat case_match; by eauto.
Qed.

Section lattice_state.
Variable seed_state :
  abstract_object_classt + context_classt ->
  exprt -> abstract_environmentt -> namespacet -> lattice_statet.

(** No object answers both [is_top] and [is_bottom]. *)
Lemma is_top_is_bottom_exclusive (o : objectt) :
  is_top seed_state o && is_bottom seed_state o = false.
Proof.
  unfold is_top, is_bottom. by destruct (state_of seed_state o).
Qed.

(** C5: when top or bottom is requested (one of them: the two at once is
    no lattice state, and the constructor turns it down), the factory
    returns, for any type and any configuration, an object of the chosen
    class built directly in the requested state: [is_top] and
    [is_bottom] of the returned object, and of the object at its core,
    answer the request, and the same object is returned for any other
    seed expression. *)
Theorem top_or_bottom_request_ignores_the_seed
    this cls type top bottom e e' environment ns :
  top || bottom = true ->
  top && bottom = false ->
  exists o,
    initialize this cls type top bottom e environment ns = Return o /\
    initialize this cls type top bottom e' environment ns = Return o /\
    base_object o =
      new_object cls
        (lattice_state type (if top then state_top else state_bottom)) /\
    arguments_of o =
      lattice_state type (if top then state_top else state_bottom) /\
    is_top seed_state o = top /\
    is_bottom seed_state o = bottom /\
    is_top seed_state (base_object o) = top /\
    is_bottom seed_state (base_object o) = bottom.
Proof.
  intros Hrequest Hstate. unfold initialize_abstract_object.
  rewrite !initialize_context_lattice_state by done. rewrite Hrequest.
  destruct (data_dependency_context (context_tracking (configuration this))),
           (last_write_context (context_tracking (configuration this)));
    destruct top, bottom; try done; eexists; by split_and!.
Qed.
End lattice_state.
End factory_properties.

Lemma data_dependency_context_takes_precedence_witness :
  initialize_abstract_object type_of_expr follow_tag both_contexts
    constant_abstract_valuet "signedbv32" false false
    sample_expr tt sample_namespace =
  Return
    (new_context data_dependency_contextt
       (new_object constant_abstract_valuet
          (seed sample_expr tt sample_namespace))
       (seed sample_expr tt sample_namespace)).
Proof.
  refine (proj1 (data_dependency_context_takes_precedence
                   type_of_expr follow_tag both_contexts
                   constant_abstract_valuet "signedbv32" false false
                   sample_expr tt sample_namespace _ _));
    reflexivity.
Defined.

Lemma context_wrapper_applied_exactly_once_witness :
  exists ctx args,
    initialize_abstract_object type_of_expr follow_tag
      (configured_with vsd_config.intervals)
      interval_abstract_valuet "signedbv32" false false
      sample_expr tt sample_namespace =
      Return (new_context ctx (new_object interval_abstract_valuet
                                 (seed sample_expr tt sample_namespace)) args) /\
    new_object interval_abstract_valuet (seed sample_expr tt sample_namespace) =
      new_object interval_abstract_valuet args /\
    nesting_depth
      (new_context ctx (new_object interval_abstract_valuet
                          (seed sample_expr tt sample_namespace)) args) = 1.
Proof.
  refine (proj1 (context_wrapper_applied_exactly_once
                   type_of_expr follow_tag
                   (configured_with vsd_config.intervals)
                   interval_abstract_valuet "signedbv32" false false
                   sample_expr tt sample_namespace) _).
  right; reflexivity.
Defined.

Lemma seed_construction_checks_the_followed_type_witness :
  initialize_context_abstract_object type_of_expr follow_tag
    constant_abstract_valuet write_location_contextt "signedbv32" false false
    sample_expr tt sample_namespace =
  Return
    (new_context write_location_contextt
       (new_object constant_abstract_valuet
          (seed sample_expr tt sample_namespace))
       (seed sample_expr tt sample_namespace)).
Proof.
  refine (proj2 (proj2 (seed_construction_checks_the_followed_type
                          type_of_expr follow_tag
                          (configured_with vsd_config.value_set)
                          constant_abstract_valuet write_location_contextt
                          "signedbv32" sample_expr tt sample_namespace) _)).
  reflexivity.
Defined.

Lemma top_or_bottom_request_ignores_the_seed_witness :
  exists o,
    initialize_abstract_object type_of_expr follow_tag
      (configured_with vsd_config.constant_domain)
      full_struct_abstract_objectt "struct" true false
      sample_expr tt sample_namespace = Return o /\
    initialize_abstract_object type_of_expr follow_tag
      (configured_with vsd_config.constant_domain)
      full_struct_abstract_objectt "struct" true false
      other_expr tt sample_namespace = Return o /\
    base_object o =
      new_object full_struct_abstract_objectt (lattice_state "struct" state_top) /\
    arguments_of o = lattice_state "struct" state_top /\
    is_top never o = true /\
    is_bottom never o = false /\
    is_top never (base_object o) = true /\
    is_bottom never (base_object o) = false.
Proof.
  refine (top_or_bottom_request_ignores_the_seed
            type_of_expr follow_tag never
            (configured_with vsd_config.constant_domain)
            full_struct_abstract_objectt "struct" true false
            sample_expr other_expr tt sample_namespace _ _);
    reflexivity.
Defined.

(** * Properties of the lattice of abstract objects *)

Module LatticeProperties.
Import Lattice.

Lemma bound_min_comm (a b : boundt) : bound_min a b = bound_min b a.
Proof. destruct a, b; simpl; try done. by rewrite Z.min_comm. Qed.

Lemma bound_max_comm (a b : boundt) : bound_max a b = bound_max b a.
Proof. destruct a, b; simpl; try done. by rewrite Z.max_comm. Qed.

Lemma bound_min_assoc (a b c : boundt) :
  bound_min a (bound_min b c) = bound_min (bound_min a b) c.
Proof. destruct a, b, c; simpl; try done. by rewrite Z.min_assoc. Qed.

Lemma bound_max_assoc (a b c : boundt) :
  bound_max a (bound_max b c) = bound_max (bound_max a b) c.
Proof. destruct a, b, c; simpl; try done. by rewrite Z.max_assoc. Qed.

Lemma bound_min_idem (a : boundt) : bound_min a a = a.
Proof. destruct a; simpl; try done. by rewrite Z.min_id. Qed.

Lemma bound_max_idem (a : boundt) : bound_max a a = a.
Proof. destruct a; simpl; try done. by rewrite Z.max_id. Qed.

(** Induction over abstract objects that reaches into the element and
    field lists. *)
Lemma abstract_object_nested_ind (P : abstract_object -> Prop) :
  P top ->
  P bottom ->
  (forall v, P (two_value v)) ->
  (forall v, P (constant v)) ->
  (forall l u, P (interval l u)) ->
  (forall s, P (value_set s)) ->
  (forall xs, Forall P xs -> P (array_sensitive xs)) ->
  (forall x, P x -> P (array_insensitive x)) ->
  (forall xs, Forall P xs -> P (struct_sensitive xs)) ->
  (forall x, P x -> P (struct_insensitive x)) ->
  (forall s, P (pointer_sensitive s)) ->
  (forall x, P x -> P (pointer_insensitive x)) ->
  (forall x, P x -> P (union_insensitive x)) ->
  forall a, P a.
Proof.
  intros Htop Hbottom Htwo Hconst Hinterval Hset Harray Hsummary
    Hstruct Hstruct' Hpointer Hpointer' Hunion.
  fix IH 1. intros [| | v | v | l u | s | xs | x | xs | x | s | x | x].
  - exact Htop.
  - exact Hbottom.
  - apply Htwo.
  - apply Hconst.
  - apply Hinterval.
  - apply Hset.
  - apply Harray. revert xs. fix IHxs 1. intros [| x xs].
    + constructor.
    + constructor; [apply IH | apply IHxs].
  - apply Hsummary, IH.
  - apply Hstruct. revert xs. fix IHxs 1. intros [| x xs].
    + constructor.
    + constructor; [apply IH | apply IHxs].
  - apply Hstruct', IH.
  - apply Hpointer.
  - apply Hpointer', IH.
  - apply Hunion, IH.
Qed.

Section zip_with.
Context {A : Type} (f : A -> A -> A).

Lemma zip_with_comm_Forall (xs ys : list A) :
  Forall (fun x => forall y, f x y = f y x) xs ->
  zip_with f xs ys = zip_with f ys xs.
Proof.
  intros H. revert ys. induction H as [| x xs Hx _ IH]; intros [| y ys];
    simpl; try done.
  by rewrite Hx, IH.
Qed.

Lemma zip_with_assoc_Forall (xs ys zs : list A) :
  Forall (fun x => forall y z, f x (f y z) = f (f x y) z) xs ->
  zip_with f xs (zip_with f ys zs) = zip_with f (zip_with f xs ys) zs.
Proof.
  intros H. revert ys zs.
  induction H as [| x xs Hx _ IH]; intros [| y ys] [| z zs]; simpl; try done.
  by rewrite Hx, IH.
Qed.

Lemma zip_with_idem_Forall (xs : list A) :
  Forall (fun x => f x x = x) xs -> zip_with f xs xs = xs.
Proof.
  induction 1 as [| x xs Hx _ IH]; simpl; [done |]. by rewrite Hx, IH.
Qed.
End zip_with.

(** A union within the bound has no part beyond the bound. *)
Lemma size_union_inner_l `{Countable A} (s t u : gset A) :
  size (s ∪ t) <= size (s ∪ t ∪ u).
Proof. apply subseteq_size, union_subseteq_l. Qed.

Lemma size_union_inner_r `{Countable A} (s t u : gset A) :
  size (t ∪ u) <= size (s ∪ t ∪ u).
Proof. rewrite <-(assoc_L (∪)). apply subseteq_size, union_subseteq_r. Qed.

Ltac smaller_union_exceeds :=
  repeat match goal with
         | H : context [?s ∪ (?t ∪ ?u)] |- _ => rewrite (assoc_L (∪) s t u) in H
         end;
  match goal with
  | H : context [size (?s ∪ ?t ∪ ?u)] |- _ =>
      pose proof (size_union_inner_l s t u);
      pose proof (size_union_inner_r s t u);
      lia
  end.

Ltac decide_case :=
  match goal with
  | |- context [decide ?P] => destruct (decide P)
  end.

Section laws.
Variable K : nat.
Variable target_bound : nat.

Local Abbreviation merge := (Lattice.merge K target_bound).
Local Abbreviation has_type := (Lattice.has_type K target_bound).

Lemma merge_bottom_r a : merge a bottom = a.
Proof. by destruct a. Qed.

Lemma merge_bottom_l a : merge bottom a = a.
Proof. done. Qed.

Lemma merge_top_r a : merge a top = top.
Proof. by destruct a. Qed.

Lemma merge_top_l a : merge top a = top.
Proof. by destruct a. Qed.

Lemma merge_comm a b : merge a b = merge b a.
Proof.
  revert b. induction a using abstract_object_nested_ind; intros []; simpl;
    try done.
  - repeat decide_case; congruence.
  - repeat decide_case; congruence.
  - by rewrite bound_min_comm, bound_max_comm.
  - by rewrite (comm_L (∪) s).
  - f_equal. by apply zip_with_comm_Forall.
  - by rewrite IHa.
  - f_equal. by apply zip_with_comm_Forall.
  - by rewrite IHa.
  - by rewrite (comm_L (∪) s).
  - by rewrite IHa.
  - by rewrite IHa.
Qed.

Lemma merge_assoc a b c : merge a (merge b c) = merge (merge a b) c.
Proof.
  revert b c. induction a using abstract_object_nested_ind; intros [] [];
    simpl; try done.
  all: repeat (decide_case; simpl); try done; try congruence.
  all: try (by exfalso; smaller_union_exceeds).
  all: try (by rewrite bound_min_assoc, bound_max_assoc).
  all: try (by rewrite (assoc_L (∪))).
  all: try (f_equal; by apply zip_with_assoc_Forall).
  all: by match goal with IH : forall b c, _ |- _ => rewrite IH end.
Qed.

Lemma has_type_struct_fields xs ts :
  has_type (struct_sensitive xs) (STRUCT_SENSITIVE ts) = true <->
  Forall2 (fun x t => has_type x t = true) xs ts.
Proof.
  simpl. revert ts. induction xs as [| x xs IH]; intros [| t ts]; simpl.
  - split; [constructor | done].
  - split; [done | inversion 1].
  - split; [done | inversion 1].
  - rewrite andb_true_iff, IH. split.
    + intros [? ?]. by constructor.
    + inversion 1; by subst.
Qed.

Lemma has_type_array_elements xs t n :
  has_type (array_sensitive xs) (ARRAY_SENSITIVE t n) = true <->
  length xs = n /\ Forall (fun x => has_type x t = true) xs.
Proof.
  simpl. rewrite andb_true_iff, bool_decide_eq_true, forallb_forall.
  by rewrite Forall_forall; setoid_rewrite list_elem_of_In.
Qed.

Lemma merge_idem a t : has_type a t = true -> merge a a = a.
Proof.
  revert t. induction a as [| | | | | | xs IH | | xs IH | | | |]
    using abstract_object_nested_ind; intros t Ht; try done.
  - simpl. by rewrite decide_True.
  - simpl. by rewrite decide_True.
  - simpl. by rewrite bound_min_idem, bound_max_idem.
  - destruct t; try done. simpl in Ht. apply bool_decide_eq_true in Ht.
    simpl. rewrite (idemp_L (∪)). by rewrite decide_True.
  - destruct t as [| | | | t n | | | | | |]; try done.
    apply has_type_array_elements in Ht as [_ Ht].
    simpl. f_equal. apply zip_with_idem_Forall.
    rewrite Forall_forall in *. eauto.
  - destruct t; try done. simpl in *. f_equal. eauto.
  - destruct t as [| | | | | | ts | | | |]; try done.
    apply has_type_struct_fields in Ht.
    simpl. f_equal. apply zip_with_idem_Forall.
    revert IH. induction Ht; inversion 1; subst; constructor; eauto.
  - destruct t; try done. simpl in *. f_equal. eauto.
  - destruct t; try done. simpl in Ht. apply bool_decide_eq_true in Ht.
    simpl. rewrite (idemp_L (∪)). by rewrite decide_True.
  - destruct t; try done. simpl in *. f_equal. eauto.
  - destruct t; try done. simpl in *. f_equal. eauto.
Qed.

(** [merge] stays within the type of its arguments. *)
Lemma merge_has_type a b t :
  has_type a t = true -> has_type b t = true -> has_type (merge a b) t = true.
Proof.
  revert b t. induction a as [| | | | | | xs IH | | xs IH | | | |]
    using abstract_object_nested_ind; intros b t Ha Hb; try done.
  - by destruct b.
  - destruct b; try done; destruct t; try done. simpl. by case_decide.
  - destruct b; try done; destruct t; try done. simpl. by case_decide.
  - destruct b; try done; destruct t; try done.
  - destruct b; try done; destruct t; try done.
    simpl. case_decide; [| done]. simpl. by apply bool_decide_eq_true.
  - destruct b as [| | | | | | ys | | | | | |]; try done;
      destruct t as [| | | | t n | | | | | |]; try done.
    apply has_type_array_elements in Ha as [Hxs Ha].
    apply has_type_array_elements in Hb as [Hys Hb].
    change (merge (array_sensitive xs) (array_sensitive ys))
      with (array_sensitive (zip_with merge xs ys)).
    apply has_type_array_elements. split.
    + rewrite length_zip_with. lia.
    + clear Hxs Hys. revert ys Hb.
      induction Ha as [| x xs Hx Ha IHxs]; intros [| y ys] Hb; simpl;
        try by constructor.
      inversion IH; inversion Hb; subst. constructor; eauto.
  - destruct b; try done; destruct t; try done. simpl in *. eauto.
  - destruct b as [| | | | | | | | ys | | | |]; try done;
      destruct t as [| | | | | | ts | | | |]; try done.
    apply has_type_struct_fields in Ha.
    apply has_type_struct_fields in Hb.
    change (merge (struct_sensitive xs) (struct_sensitive ys))
      with (struct_sensitive (zip_with merge xs ys)).
    apply has_type_struct_fields.
    revert ys Hb.
    induction Ha as [| x t xs ts Hx Ha IHxs]; intros ys Hb;
      inversion Hb; subst; simpl; [by constructor |].
    inversion IH; subst. constructor; eauto.
  - destruct b; try done; destruct t; try done. simpl in *. eauto.
  - destruct b; try done; destruct t; try done.
    simpl. case_decide; [| done]. simpl. by apply bool_decide_eq_true.
  - destruct b; try done; destruct t; try done. simpl in *. eauto.
  - destruct b; try done; destruct t; try done. simpl in *. eauto.
Qed.

(** C7: for all abstract objects [a], [b], [c] of one type, of whatever
    variant, [merge] is commutative, associative and idempotent, bottom
    is neutral for it and top absorbs. *)
Theorem merge_lattice_laws t a b c :
  has_type a t = true ->
  has_type b t = true ->
  has_type c t = true ->
  merge a b = merge b a /\
  merge a (merge b c) = merge (merge a b) c /\
  merge a a = a /\
  merge a bottom = a /\
  merge a top = top.
Proof.
  intros Ha _ _. split_and!.
  - apply merge_comm.
  - apply merge_assoc.
  - by apply merge_idem with t.
  - apply merge_bottom_r.
  - apply merge_top_r.
Qed.
End laws.

(** The convex hull of [[1,3]] and [[5,7]] is [[1,7]]. *)
Example merge_interval_hull :
  Lattice.merge 2 2 (interval (finite 1) (finite 3))
    (interval (finite 5) (finite 7)) =
  interval (finite 1) (finite 7).
Proof. reflexivity. Qed.

(** With bound 2, three distinct singletons collapse to top. *)
Example merge_value_set_collapse :
  Lattice.merge 2 2 (value_set {[1%Z]})
    (Lattice.merge 2 2 (value_set {[2%Z]}) (value_set {[3%Z]})) = top.
Proof. by vm_compute. Qed.

(** Field [a] assigned 5 on one branch and 7 on the other, field [b]
    untouched: under the constant domain [a] becomes top and [b] keeps its
    value. *)
Example merge_struct_scenario :
  Lattice.merge 2 2 (struct_sensitive [constant 5; constant 1])
    (struct_sensitive [constant 7; constant 1]) =
  struct_sensitive [top; constant 1].
Proof. reflexivity. Qed.

Lemma merge_lattice_laws_witness :
  let a := struct_sensitive
             [constant 5; value_set {[1%Z]}; array_sensitive [interval (finite 1) (finite 3)]] in
  let b := struct_sensitive
             [constant 7; value_set {[2%Z]}; array_sensitive [interval (finite 5) (finite 7)]] in
  let c := struct_sensitive
             [constant 5; value_set {[3%Z]}; array_sensitive [top]] in
  Lattice.merge 2 2 a b = Lattice.merge 2 2 b a /\
  Lattice.merge 2 2 a (Lattice.merge 2 2 b c) =
    Lattice.merge 2 2 (Lattice.merge 2 2 a b) c /\
  Lattice.merge 2 2 a a = a /\
  Lattice.merge 2 2 a bottom = a /\
  Lattice.merge 2 2 a top = top.
Proof.
  intros a b c.
  refine (merge_lattice_laws 2 2
            (STRUCT_SENSITIVE
               [CONSTANT; VALUE_SET; ARRAY_SENSITIVE INTERVAL 1])
            a b c _ _ _);
    vm_compute; reflexivity.
Defined.
End LatticeProperties.


(** * Further properties of [from_options] *)

Section from_options_further.
Context {optionst : Type}.
Variable flag : optionst -> string -> bool.

Local Abbreviation from_options := (vsd_config.from_options flag).

(** Case analysis on the seven flags [from_options] reads. *)
Ltac flag_cases options :=
  destruct (flag options "value-set") eqn:?,
           (flag options "data-dependencies") eqn:?,
           (flag options "structs") eqn:?,
           (flag options "arrays") eqn:?,
           (flag options "pointers") eqn:?,
           (flag options "interval") eqn:?,
           (flag options "new-value-set") eqn:?.

Lemma recognised_flags_agree (options1 options2 : optionst) :
  Forall (fun name => flag options1 name = flag options2 name)
    recognised_flags <->
  flag options1 "value-set" = flag options2 "value-set" /\
  flag options1 "data-dependencies" = flag options2 "data-dependencies" /\
  flag options1 "structs" = flag options2 "structs" /\
  flag options1 "arrays" = flag options2 "arrays" /\
  flag options1 "pointers" = flag options2 "pointers" /\
  flag options1 "interval" = flag options2 "interval" /\
  flag options1 "new-value-set" = flag options2 "new-value-set".
Proof.
  unfold recognised_flags. rewrite !Forall_cons, Forall_nil. tauto.
Qed.

(** X1: the outcome of [from_options], configuration or exception, is
    decided by the seven flags it reads: two option tables that agree on
    them give the same outcome, whatever else they hold. *)
Theorem from_options_reads_only_recognised_flags (options1 options2 : optionst) :
  Forall (fun name => flag options1 name = flag options2 name)
    recognised_flags ->
  from_options options1 = from_options options2.
Proof.
  intros H. apply recognised_flags_agree in H.
  destruct H as (Hvs & Hdd & Hs & Ha & Hp & Hi & Hn).
  unfold vsd_config.from_options. by rewrite Hvs, Hdd, Hs, Ha, Hp, Hi, Hn.
Qed.

(** X2: every configuration [from_options] returns keeps the value-set
    domain and the data-dependency context apart, has the last-write
    context on exactly when the value-set domain is off, and so has the
    last-write context on whenever the data-dependency context is on. *)
Theorem from_options_configuration_invariant (options : optionst) config :
  from_options options = Return config ->
  value_set (advanced_sensitivities config) &&
    data_dependency_context (context_tracking config) = false /\
  last_write_context (context_tracking config) =
    negb (value_set (advanced_sensitivities config)) /\
  (data_dependency_context (context_tracking config) = true ->
   last_write_context (context_tracking config) = true).
Proof.
  destruct (flag options "value-set" && flag options "data-dependencies")
    eqn:Hboth.
  - by rewrite from_options_conflict.
  - rewrite from_options_no_conflict by done. intros [= <-]. simpl.
    split_and!; [done | done |].
    intros Hdd. rewrite Hdd, andb_true_r in Hboth. by rewrite Hboth.
Qed.

(** X3: a returned configuration determines the seven flags: two option
    tables for which [from_options] returns the same configuration agree
    on every flag it reads. *)
Theorem from_options_configuration_determines_flags
    (options1 options2 : optionst) config :
  from_options options1 = Return config ->
  from_options options2 = Return config ->
  Forall (fun name => flag options1 name = flag options2 name)
    recognised_flags.
Proof.
  intros H1 H2. apply recognised_flags_agree.
  destruct (flag options1 "value-set" && flag options1 "data-dependencies")
    eqn:Hboth1; [by rewrite from_options_conflict in H1 |].
  destruct (flag options2 "value-set" && flag options2 "data-dependencies")
    eqn:Hboth2; [by rewrite from_options_conflict in H2 |].
  rewrite from_options_no_conflict in H1, H2 by done.
  injection H1 as <-. injection H2 as Hs Ha Hp Hdd Hlw Hi Hvs Hn.
  by split_and!.
Qed.

(** X4: [from_options] returns a preset for exactly one setting of the
    seven flags: [constant_domain] for structs, arrays and pointers alone,
    [intervals] for these and interval, [value_set] for these and
    value-set. *)
Theorem from_options_returns_preset_iff (options : optionst) :
  (from_options options = Return vsd_config.constant_domain <->
     flag options "structs" = true /\ flag options "arrays" = true /\
     flag options "pointers" = true /\ flag options "interval" = false /\
     flag options "value-set" = false /\
     flag options "data-dependencies" = false /\
     flag options "new-value-set" = false) /\
  (from_options options = Return vsd_config.intervals <->
     flag options "structs" = true /\ flag options "arrays" = true /\
     flag options "pointers" = true /\ flag options "interval" = true /\
     flag options "value-set" = false /\
     flag options "data-dependencies" = false /\
     flag options "new-value-set" = false) /\
  (from_options options = Return vsd_config.value_set <->
     flag options "structs" = true /\ flag options "arrays" = true /\
     flag options "pointers" = true /\ flag options "interval" = false /\
     flag options "value-set" = true /\
     flag options "data-dependencies" = false /\
     flag options "new-value-set" = false).
Proof.
  unfold vsd_config.from_options.
  flag_cases options; simpl; split_and!; split;
    solve [done | intros; by split_and! | intros (? & ? & ? & ? & ? & ? & ?); done].
Qed.
End from_options_further.

Lemma from_options_reads_only_recognised_flags_witness :
  vsd_config.from_options get_bool_option constant_domain_flags =
  vsd_config.from_options get_bool_option constant_domain_flags_verbose.
Proof.
  refine (from_options_reads_only_recognised_flags get_bool_option
            constant_domain_flags constant_domain_flags_verbose _).
  repeat constructor.
Defined.

Lemma from_options_configuration_invariant_witness :
  value_set (advanced_sensitivities (set_data_dependency_context true
    (set_struct_sensitivity true (set_last_write_context true value_initialized)))) &&
    data_dependency_context (context_tracking (set_data_dependency_context true
      (set_struct_sensitivity true (set_last_write_context true value_initialized)))) =
    false /\
  last_write_context (context_tracking (set_data_dependency_context true
    (set_struct_sensitivity true (set_last_write_context true value_initialized)))) =
    negb (value_set (advanced_sensitivities (set_data_dependency_context true
      (set_struct_sensitivity true (set_last_write_context true value_initialized))))) /\
  (data_dependency_context (context_tracking (set_data_dependency_context true
     (set_struct_sensitivity true (set_last_write_context true value_initialized)))) =
     true ->
   last_write_context (context_tracking (set_data_dependency_context true
     (set_struct_sensitivity true (set_last_write_context true value_initialized)))) =
     true).
Proof.
  refine (from_options_configuration_invariant get_bool_option
            data_dependency_flags _ _).
  reflexivity.
Defined.

Lemma from_options_configuration_determines_flags_witness :
  Forall (fun name => get_bool_option constant_domain_flags name =
                      get_bool_option constant_domain_flags_explicit name)
    recognised_flags.
Proof.
  refine (from_options_configuration_determines_flags get_bool_option
            constant_domain_flags constant_domain_flags_explicit
            vsd_config.constant_domain _ _);
    reflexivity.
Defined.

(** * Further properties of the construction templates *)

Section factory_further.
Context {typet exprt abstract_environmentt namespacet : Type}.
Context `{type_eq : EqDecision typet}.
Variable expr_type : exprt -> typet.
Variable follow : namespacet -> typet -> typet.

Local Abbreviation initialize := (initialize_abstract_object expr_type follow).
Local Abbreviation initialize_context :=
  (initialize_context_abstract_object expr_type follow).

Implicit Types (this : variable_sensitivity_object_factoryt)
  (cls : abstract_object_classt) (ctx : context_classt)
  (type : typet) (top bottom : bool) (e : exprt)
  (environment : abstract_environmentt) (ns : namespacet).

(** Whatever the configuration, [initialize_abstract_object] goes one of
    three ways that differ only in the wrapper. *)
Lemma initialize_cases this cls type top bottom e environment ns :
  (exists ctx,
     initialize this cls type top bottom e environment ns =
       initialize_context cls ctx type top bottom e environment ns) \/
  initialize this cls type top bottom e environment ns =
    initialize (without_context_tracking this)
      cls type top bottom e environment ns.
Proof.
  destruct (data_dependency_context (context_tracking (configuration this)))
    eqn:Hdd.
  - left. eexists. by apply initialize_data_dependency.
  - destruct (last_write_context (context_tracking (configuration this)))
      eqn:Hlw.
    + left. eexists. by apply initialize_last_write.
    + right. rewrite initialize_without_context_tracking.
      by apply initialize_plain.
Qed.

(** X5: for a request that is not for top and bottom at once, whether a
    construction is abandoned does not depend on the configuration, the
    class or the context: both templates raise exactly when neither top
    nor bottom is requested and the type differs from the followed type
    of the seed expression, and what they raise is the violation of that
    one precondition. *)
Theorem construction_fails_iff_seed_type_mismatch
    this cls ctx type top bottom e environment ns :
  top && bottom = false ->
  (throws (initialize this cls type top bottom e environment ns) = true <->
     top = false /\ bottom = false /\ type <> follow ns (expr_type e)) /\
  (throws (initialize_context cls ctx type top bottom e environment ns) = true <->
     top = false /\ bottom = false /\ type <> follow ns (expr_type e)) /\
  (forall failure,
     initialize this cls type top bottom e environment ns = Throw failure \/
     initialize_context cls ctx type top bottom e environment ns = Throw failure ->
     failure = {| condition := "type == ns.follow(e.type())" |}).
Proof.
  intros Hstate.
  assert (forall ctx',
    throws (initialize_context cls ctx' type top bottom e environment ns) = true <->
    top = false /\ bottom = false /\ type <> follow ns (expr_type e)) as Hctx.
  { intros ctx'. rewrite initialize_context_wraps.
    destruct top, bottom; simpl; try done;
      try (split; [done | by intros (? & ? & ?)]).
    case_bool_decide; simpl; split; try done; by intros (? & ? & ?). }
  assert (forall ctx' failure,
    initialize_context cls ctx' type top bottom e environment ns = Throw failure ->
    failure = {| condition := "type == ns.follow(e.type())" |}) as Hctx'.
  { intros ctx' failure. rewrite initialize_context_wraps.
    destruct top, bottom; try done. case_bool_decide; [done |].
    by intros [= <-]. }
  split_and!.
  - destruct (initialize_cases this cls type top bottom e environment ns)
      as [[ctx' ->] | ->]; [apply Hctx |].
    rewrite initialize_without_context_tracking.
    destruct top, bottom; simpl; try done;
      try (split; [done | by intros (? & ? & ?)]).
    case_bool_decide; simpl; split; try done; by intros (? & ? & ?).
  - apply Hctx.
  - intros failure [H | H]; [| by eapply Hctx'].
    destruct (initialize_cases this cls type top bottom e environment ns)
      as [[ctx' Heq] | Heq]; rewrite Heq in H; [by eapply Hctx' |].
    rewrite initialize_without_context_tracking in H.
    destruct top, bottom; try done. case_bool_decide; [done |].
    by injection H as <-.
Qed.

(** X6: the templates consult the configuration only for its two
    context-tracking flags: factories whose configurations agree on them
    build the same object (or fail alike), whatever their sensitivity and
    domain flags and whether or not they are marked initialized. *)
Theorem construction_depends_only_on_context_tracking
    this this' cls type top bottom e environment ns :
  context_tracking (configuration this) =
    context_tracking (configuration this') ->
  initialize_abstract_object expr_type follow
    this cls type top bottom e environment ns =
  initialize_abstract_object expr_type follow
    this' cls type top bottom e environment ns.
Proof. intros H. unfold initialize_abstract_object. by rewrite H. Qed.

(** X7: a top or bottom request consults neither the seed expression, the
    environment nor the namespace: the outcome is the same for any other
    three, also where the type is not the followed type of the seed, and
    when only one of top and bottom is requested the construction is not
    abandoned. *)
Theorem top_or_bottom_request_needs_no_namespace
    this cls type top bottom e e' environment environment' ns ns' :
  top || bottom = true ->
  initialize this cls type top bottom e environment ns =
    initialize this cls type top bottom e' environment' ns' /\
  (top && bottom = false ->
   throws (initialize this cls type top bottom e environment ns) = false).
Proof.
  intros Hrequest. unfold initialize_abstract_object.
  rewrite !initialize_context_wraps. rewrite Hrequest.
  destruct (data_dependency_context (context_tracking (configuration this))),
           (last_write_context (context_tracking (configuration this)));
    by destruct top, bottom.
Qed.

(** X9: through the [constant_domain] and the [intervals] preset the
    templates wrap every object in [write_location_contextt], and the two
    presets build the same objects; through the [value_set] preset no
    object is wrapped. *)
Theorem presets_select_the_wrapper cls type top bottom e environment ns :
  initialize (configured_with vsd_config.constant_domain)
    cls type top bottom e environment ns =
    initialize_context cls write_location_contextt
      type top bottom e environment ns /\
  initialize (configured_with vsd_config.intervals)
    cls type top bottom e environment ns =
    initialize (configured_with vsd_config.constant_domain)
      cls type top bottom e environment ns /\
  match initialize (configured_with vsd_config.value_set)
          cls type top bottom e environment ns with
  | Return o => o = new_object cls (arguments_of o) /\ nesting_depth o = 0
  | Throw _ => True
  end.
Proof.
  split_and!; [done | done |].
  rewrite initialize_plain by done.
  destruct top, bottom; try done. by case_bool_decide.
Qed.

Section from_options_to_factory.
Context {optionst : Type}.
Variable flag : optionst -> string -> bool.

(** X8: a factory configured from the command line wraps every object it
    returns in [data_dependency_contextt] when data-dependencies was
    given, in [write_location_contextt] when neither data-dependencies nor
    value-set was given, and in nothing when value-set was given; it
    fails to return one only when top and bottom are requested at once or
    a seed is required and the type precondition is violated. *)
Theorem from_options_selects_the_wrapper
    (options : optionst) config cls type top bottom e environment ns :
  vsd_config.from_options flag options = Return config ->
  match initialize (configured_with config)
          cls type top bottom e environment ns with
  | Return o =>
      context_of o =
        (if flag options "data-dependencies" then Some data_dependency_contextt
         else if flag options "value-set" then None
         else Some write_location_contextt) /\
      nesting_depth o = (if flag options "value-set" then 0 else 1)
  | Throw _ =>
      top && bottom = true \/
      (top || bottom = false /\ type <> follow ns (expr_type e))
  end.
Proof.
  destruct (flag options "value-set" && flag options "data-dependencies")
    eqn:Hboth.
  - by rewrite from_options_conflict.
  - rewrite from_options_no_conflict by done. intros [= <-].
    unfold initialize_abstract_object. simpl.
    rewrite !initialize_context_wraps.
    destruct (flag options "value-set"), (flag options "data-dependencies");
      try done; simpl;
      destruct top, bottom; simpl; try done; try (by left);
      case_bool_decide; try done; by right.
Qed.
End from_options_to_factory.
End factory_further.

Lemma construction_fails_iff_seed_type_mismatch_witness :
  throws
    (initialize_abstract_object type_of_expr follow_tag
       (configured_with vsd_config.value_set)
       value_set_abstract_objectt "signedbv32" false false
       sample_expr tt other_namespace) = true.
Proof.
  refine (proj2 (proj1 (construction_fails_iff_seed_type_mismatch
                          type_of_expr follow_tag
                          (configured_with vsd_config.value_set)
                          value_set_abstract_objectt write_location_contextt
                          "signedbv32" false false
                          sample_expr tt other_namespace _)) _).
  - reflexivity.
  - split; [reflexivity | split; [reflexivity |]].
    intros H. vm_compute in H. discriminate H.
Defined.

Lemma construction_depends_only_on_context_tracking_witness :
  initialize_abstract_object type_of_expr follow_tag
    (configured_with vsd_config.constant_domain)
    constant_array_abstract_objectt "signedbv32" false false
    sample_expr tt sample_namespace =
  initialize_abstract_object type_of_expr follow_tag
    {| configuration := vsd_config.intervals; initialized := false |}
    constant_array_abstract_objectt "signedbv32" false false
    sample_expr tt sample_namespace.
Proof.
  refine (construction_depends_only_on_context_tracking
            type_of_expr follow_tag
            (configured_with vsd_config.constant_domain)
            {| configuration := vsd_config.intervals; initialized := false |}
            constant_array_abstract_objectt "signedbv32" false false
            sample_expr tt sample_namespace _).
  reflexivity.
Defined.

Lemma top_or_bottom_request_needs_no_namespace_witness :
  initialize_abstract_object type_of_expr follow_tag
    (configured_with vsd_config.constant_domain)
    constant_pointer_abstract_objectt "pointer" false true
    sample_expr tt sample_namespace =
  initialize_abstract_object type_of_expr follow_tag
    (configured_with vsd_config.constant_domain)
    constant_pointer_abstract_objectt "pointer" false true
    other_expr tt other_namespace /\
  throws
    (initialize_abstract_object type_of_expr follow_tag
       (configured_with vsd_config.constant_domain)
       constant_pointer_abstract_objectt "pointer" false true
       sample_expr tt sample_namespace) = false.
Proof.
  destruct (top_or_bottom_request_needs_no_namespace
              type_of_expr follow_tag
              (configured_with vsd_config.constant_domain)
              constant_pointer_abstract_objectt "pointer" false true
              sample_expr other_expr tt tt sample_namespace other_namespace
              eq_refl) as [Hsame Hreturns].
  split; [exact Hsame | exact (Hreturns eq_refl)].
Defined.

Lemma from_options_selects_the_wrapper_witness :
  match
    initialize_abstract_object type_of_expr follow_tag
      (configured_with
         (set_data_dependency_context true
            (set_struct_sensitivity true
               (set_last_write_context true value_initialized))))
      full_struct_abstract_objectt "signedbv32" false false
      sample_expr tt sample_namespace
  with
  | Return o =>
      context_of o =
        (if get_bool_option data_dependency_flags "data-dependencies"
         then Some data_dependency_contextt
         else if get_bool_option data_dependency_flags "value-set" then None
         else Some write_location_contextt) /\
      nesting_depth o =
        (if get_bool_option data_dependency_flags "value-set" then 0 else 1)
  | Throw _ =>
      false && false = true \/
      (false || false = false /\
       "signedbv32" <> follow_tag sample_namespace (type_of_expr sample_expr))
  end.
Proof.
  refine (from_options_selects_the_wrapper
            type_of_expr follow_tag get_bool_option
            data_dependency_flags
            (set_data_dependency_context true
               (set_struct_sensitivity true
                  (set_last_write_context true value_initialized)))
            full_struct_abstract_objectt "signedbv32" false false
            sample_expr tt sample_namespace _).
  reflexivity.
Defined.
